(** * Superstore dashboard (main.py): load, coerce, filter, group-by-sum, export

    A shallow embedding of the dashboard script.  The script is a straight
    line of dataframe calls; the embedding follows it statement by
    statement.  Library calls whose behaviour is not decided by this
    repository (text-to-date parsing, calendar arithmetic, the CSV and Excel
    readers, the text of one CSV field, the uploader's file-type check) are
    Variables of the section [Dashboard]; everything the script itself
    decides is a definition.

    Conventions of the model:
    - a Python [str] is represented by the string of its UTF-8 bytes, so
      that [s.encode('utf-8')] is the list of those bytes;
    - a pandas [Timestamp] is its integer number of nanoseconds since the
      epoch, [NaT] / [NaN] / [None] are the absent case of an [option];
    - the Sales column holds exact numbers ([Z]); rounding of binary
      floating point is outside the model;
    - layout, styling and chart calls produce no table and no download and
      are not recorded. *)

From Stdlib Require Import List String Ascii ZArith Bool Lia DecimalString.
From Stdlib Require Import Sorting.Sorted Sorting.Permutation.
Import ListNotations.

Local Open Scope string_scope.
Local Open Scope list_scope.
Local Open Scope Z_scope.

(** ** Strings *)

Module Str.

(** [s.endswith(suffix)] *)
Definition endswith (s suffix : string) : bool :=
  (String.length suffix <=? String.length s)%nat
  && String.eqb
       (substring (String.length s - String.length suffix)
                  (String.length suffix) s)
       suffix.

Definition lt (a b : string) : Prop := String.compare a b = Lt.

End Str.

(** ** The dataframe fragment used by the script *)

Module Pandas.

Definition Timestamp := Z.

(** A cell of a column the script never inspects, and of a rendered frame. *)
Inductive Cell : Type :=
| CStr (s : string)
| CNum (z : Z)
| CTime (t : Timestamp)
| CPeriod (p : Z)               (* a monthly period, by its ordinal *)
| CNaN.

(** The Order Date cell as the reader delivers it: text (CSV), an already
    typed date (Excel), or nothing. *)
Inductive RawDate : Type :=
| Text (s : string)
| Stamp (t : Timestamp)
| Missing.

(** One sales record.  [D] is the type of the Order Date cell: [RawDate]
    as loaded, [option Timestamp] once line 45 has run. *)
Record Row (D : Type) : Type := mkRow {
  label      : Z;               (* index label *)
  Order_Date : D;
  Region     : option string;
  State      : option string;
  City       : option string;
  Category   : option string;
  Sales      : option Z;
  others     : list (string * Cell)   (* Segment, Sub-Category, Profit, ... *)
}.
Arguments mkRow {D}.
Arguments label {D}.
Arguments Order_Date {D}.
Arguments Region {D}.
Arguments State {D}.
Arguments City {D}.
Arguments Category {D}.
Arguments Sales {D}.
Arguments others {D}.

Record Table (D : Type) : Type := mkTable {
  other_columns : list string;  (* names of the remaining columns, in order *)
  rows          : list (Row D)
}.
Arguments mkTable {D}.
Arguments other_columns {D}.
Arguments rows {D}.

Abbreviation DRow := (Row (option Timestamp)).
Abbreviation DTable := (Table (option Timestamp)).

(** Boolean-mask indexing [t[mask]]: keeps the rows, in order, whose mask
    entry is true. *)
Definition select {D} (mask : Row D -> bool) (t : Table D) : Table D :=
  mkTable (other_columns t) (filter mask (rows t)).

(** *** Equality on optional strings ([NaN] matches [NaN] in [isin]) *)

Definition ostr_eqb (a b : option string) : bool :=
  match a, b with
  | Some x, Some y => String.eqb x y
  | None, None => true
  | _, _ => false
  end.

(** [col.isin(values)] on one cell *)
Definition isin (values : list (option string)) (c : option string) : bool :=
  existsb (ostr_eqb c) values.

(** [col.unique()]: distinct values in order of first appearance. *)
Fixpoint unique_acc (seen : list (option string)) (l : list (option string))
  : list (option string) :=
  match l with
  | [] => []
  | c :: l' =>
      if isin seen c then unique_acc seen l'
      else c :: unique_acc (c :: seen) l'
  end.

Definition unique (l : list (option string)) : list (option string) :=
  unique_acc [] l.

(** *** Sums ([skipna]: a missing amount adds nothing) *)

Definition amount (v : option Z) : Z :=
  match v with Some z => z | None => 0 end.


(** *** Group-by-sum

    [t.groupby(key, as_index=False)["Sales"].sum()]: rows with a missing
    key are left out ([dropna]), the groups come out sorted by key
    ([sort]), each with the sum of its Sales.  One pass over the rows adds
    every amount into the bucket of its key. *)

Definition Agg := list (string * Z).

Fixpoint group_add (k : string) (v : Z) (acc : Agg) : Agg :=
  match acc with
  | [] => [(k, v)]
  | (k', s) :: rest =>
      match String.compare k k' with
      | Lt => (k, v) :: acc
      | Eq => (k', s + v) :: rest
      | Gt => (k', s) :: group_add k v rest
      end
  end.

Definition group_step {D} (key : Row D -> option string) (acc : Agg) (r : Row D)
  : Agg :=
  match key r with
  | Some k => group_add k (amount (Sales r)) acc
  | None => acc
  end.

Definition groupby_sum {D} (key : Row D -> option string) (l : list (Row D))
  : Agg :=
  fold_left (group_step key) l [].


Definition keys (a : Agg) : list string := map fst a.



(** *** Date coercion and the date mask *)

(** [pd.to_datetime(col, dayfirst=True, errors='coerce')] on one cell;
    [parse] is the text parser, which answers [None] where pandas would
    fail and [errors='coerce'] turns the failure into [NaT]. *)
Definition to_datetime (parse : string -> option Timestamp) (c : RawDate)
  : option Timestamp :=
  match c with
  | Text s => parse s
  | Stamp t => Some t
  | Missing => None
  end.

(** [df["Order Date"] = f(df["Order Date"])] *)
Definition set_Order_Date {D E} (f : D -> E) (r : Row D) : Row E :=
  mkRow (label r) (f (Order_Date r)) (Region r) (State r) (City r)
        (Category r) (Sales r) (others r).

Definition assign_Order_Date {D E} (f : D -> E) (t : Table D) : Table E :=
  mkTable (other_columns t) (map (set_Order_Date f) (rows t)).

Definition notna (r : DRow) : bool :=
  match Order_Date r with Some _ => true | None => false end.

(** [df.dropna(subset=["Order Date"])] *)
Definition dropna (t : DTable) : DTable := select notna t.

(** [col >= d] and [col <= d]; a comparison with [NaT] is false. *)
Definition ge (d : Timestamp) (r : DRow) : bool :=
  match Order_Date r with Some x => d <=? x | None => false end.

Definition le (d : Timestamp) (r : DRow) : bool :=
  match Order_Date r with Some x => x <=? d | None => false end.

(** [col.min()] and [col.max()], skipping [NaT]; [NaT] on an empty column. *)
Definition opt_best (pick : Z -> Z -> Z) (acc : option Timestamp)
           (c : option Timestamp) : option Timestamp :=
  match acc, c with
  | Some a, Some x => Some (pick a x)
  | None, x => x
  | a, None => a
  end.

Definition col_min (t : DTable) : option Timestamp :=
  fold_left (opt_best Z.min) (map Order_Date (rows t)) None.

Definition col_max (t : DTable) : option Timestamp :=
  fold_left (opt_best Z.max) (map Order_Date (rows t)) None.

(** *** Column assignment [t[name] = ...] on the remaining columns *)

Fixpoint set_cell (name : string) (v : Cell) (l : list (string * Cell))
  : list (string * Cell) :=
  match l with
  | [] => [(name, v)]
  | (n, x) :: l' =>
      if String.eqb n name then (n, v) :: l' else (n, x) :: set_cell name v l'
  end.

Fixpoint get_cell (name : string) (l : list (string * Cell)) : Cell :=
  match l with
  | [] => CNaN
  | (n, x) :: l' => if String.eqb n name then x else get_cell name l'
  end.

Definition add_name (name : string) (cols : list string) : list string :=
  if existsb (String.eqb name) cols then cols else cols ++ [name].

Definition set_others {D} (r : Row D) (o : list (string * Cell)) : Row D :=
  mkRow (label r) (Order_Date r) (Region r) (State r) (City r)
        (Category r) (Sales r) o.

Definition assign {D} (name : string) (f : Row D -> Cell) (t : Table D)
  : Table D :=
  mkTable (add_name name (other_columns t))
          (map (fun r => set_others r (set_cell name (f r) (others r)))
               (rows t)).

(** *** Frames as they are written out *)

Record Frame : Type := mkFrame {
  columns : list string;
  lines   : list (Z * list Cell)      (* index label, cells *)
}.

Definition ostr_cell (c : option string) : Cell :=
  match c with Some s => CStr s | None => CNaN end.

Definition date_cell (c : option Timestamp) : Cell :=
  match c with Some t => CTime t | None => CNaN end.

Definition num_cell (c : option Z) : Cell :=
  match c with Some z => CNum z | None => CNaN end.

(** The six columns the script names come first; the model does not keep
    their place among the others. *)
Definition named_columns : list string :=
  ["Order Date"; "Region"; "State"; "City"; "Category"; "Sales"].

Definition frame_of_table (t : DTable) : Frame :=
  mkFrame
    (named_columns ++ other_columns t)
    (map (fun r =>
            (label r,
             [date_cell (Order_Date r); ostr_cell (Region r);
              ostr_cell (State r); ostr_cell (City r);
              ostr_cell (Category r); num_cell (Sales r)]
             ++ map (fun c => get_cell c (others r)) (other_columns t)))
         (rows t)).

(** The result of a group-by with [as_index=False] (or after
    [reset_index()]) carries a fresh index 0, 1, 2, ... *)
Fixpoint range_index {A} (i : Z) (l : list A) : list (Z * A) :=
  match l with
  | [] => []
  | x :: l' => (i, x) :: range_index (i + 1) l'
  end.

Definition frame_of_agg (key_name : string) (a : Agg) : Frame :=
  mkFrame [key_name; "Sales"]
          (range_index 0 (map (fun p => [CStr (fst p); CNum (snd p)]) a)).

(** [frame.to_csv(index=...)]: a header line and one line per row, fields
    separated by commas, each line ended by a newline.  With [index] the
    index label leads every line (under an empty header field).  [field]
    gives the text of one field. *)
Definition csv_line (fields : list string) : string :=
  (String.concat "," fields ++ String (ascii_of_nat 10) "")%string.

Definition to_csv (field : Cell -> string) (index : bool) (f : Frame)
  : string :=
  String.append
    (csv_line ((if index then [""] else [])
               ++ map (fun c => field (CStr c)) (columns f)))
    (String.concat ""
       (map (fun l => csv_line ((if index then [field (CNum (fst l))] else [])
                                ++ map field (snd l)))
            (lines f))).

(** [t.head(n)]: the first [n] rows, all of them when there are fewer. *)
Definition head {D} (n : nat) (t : Table D) : Table D :=
  mkTable (other_columns t) (firstn n (rows t)).

(** The cell of a row under a column name. *)
Definition cell_of (r : DRow) (c : string) : Cell :=
  if String.eqb c "Order Date" then date_cell (Order_Date r)
  else if String.eqb c "Region" then ostr_cell (Region r)
  else if String.eqb c "State" then ostr_cell (State r)
  else if String.eqb c "City" then ostr_cell (City r)
  else if String.eqb c "Category" then ostr_cell (Category r)
  else if String.eqb c "Sales" then num_cell (Sales r)
  else get_cell c (others r).

Definition has_column (t : DTable) (c : string) : bool :=
  existsb (String.eqb c) (named_columns ++ other_columns t).

(** [t[[c1, c2, ...]]]: the listed columns in the listed order; [None]
    stands for the [KeyError] pandas raises when one of them is missing. *)
Definition project (cols : list string) (t : DTable) : option Frame :=
  if forallb (has_column t) cols
  then Some (mkFrame cols
               (map (fun r => (label r, map (cell_of r) cols)) (rows t)))
  else None.

(** [s.encode('utf-8')] *)
Definition encode_utf8 (s : string) : list Byte.byte := list_byte_of_string s.

End Pandas.

(** ** The part of Streamlit the script talks to *)

Module Streamlit.

Import Pandas.

Record UploadedFile : Type := mkUpload {
  name    : string;
  content : list Byte.byte
}.

(** What one run of the script finds around it. *)
Record Env : Type := mkEnv {
  (* [None]: plotly imports; [Some e]: the import raises, [e] its text *)
  plotly_import : option string;
  (* the file the user put into the uploader, if any *)
  uploaded      : option UploadedFile;
  (* the bytes at [default_path], if that path exists *)
  default_file  : option (list Byte.byte);
  (* the date the user leaves in a date input, given label and default *)
  date_input    : string -> option Timestamp -> Timestamp;
  (* the values the user picks in a multiselect, given label and options *)
  multiselect   : string -> list (option string) -> list (option string)
}.

(** What the model keeps of the page: the messages written with
    [st.error], [st.info] and [st.write], and the download buttons.
    Titles, headers, styled tables and charts are not kept. *)
Inductive UI : Type :=
| error (msg : string)
| info (msg : string)
| write (msg : string)
| download_button (label : string) (data : list Byte.byte)
                  (file_name mime : string).

(** How a run of the script, or of a part of it, ends. *)
Inductive Result (A : Type) : Type :=
| Val (a : A)       (* ran to its end *)
| Halt              (* [st.stop()] *)
| Exn.              (* an exception nobody catches *)
Arguments Val {A}.
Arguments Halt {A}.
Arguments Exn {A}.

(** A script fragment: it extends the page and ends in a [Result]. *)
Definition App (A : Type) : Type := list UI -> Result A * list UI.

Definition ret {A} (a : A) : App A := fun page => (Val a, page).

Definition bind {A B} (m : App A) (k : A -> App B) : App B :=
  fun page =>
    match m page with
    | (Val a, page') => k a page'
    | (Halt, page') => (Halt, page')
    | (Exn, page') => (Exn, page')
    end.

Definition emit (e : UI) : App unit := fun page => (Val tt, page ++ [e]).

Definition stop {A} : App A := fun page => (Halt, page).

Definition raise {A} : App A := fun page => (Exn, page).

(** A library call that may raise. *)
Definition call {A} (r : option A) : App A :=
  match r with Some a => ret a | None => raise end.

End Streamlit.

(** ** A small world to run the script in

    Stand-ins for the library functions, right on the handful of inputs
    used here, and a five-row table. *)

Module Sample.

Import Pandas Streamlit.

Definition day (n : Z) : Timestamp := n * 86400000000000.

(* 2017-01-01 is day 17167 *)
Definition parse_datetime (column : list RawDate) (s : string)
  : option Timestamp :=
  if String.eqb s "05/01/2017" then Some (day 17171)
  else if String.eqb s "20/02/2017" then Some (day 17217)
  else if String.eqb s "03/03/2017" then Some (day 17228)
  else None.

Definition to_period_M (t : Timestamp) : Z :=
  if t <? day 17198 then 564 else if t <? day 17226 then 565 else 566.

Definition strftime_Y_b (p : Z) : string :=
  if p =? 564 then "2017-Jan" else if p =? 565 then "2017-Feb" else "2017-Mar".

Definition month_name (t : Timestamp) : string :=
  if t <? day 17198 then "January"
  else if t <? day 17226 then "February" else "March".

Definition csv_field (c : Cell) : string :=
  match c with
  | CStr s => s
  | CNum z | CTime z | CPeriod z => DecimalString.NilZero.string_of_int (Z.to_int z)
  | CNaN => ""
  end.

Definition accepts (types : list string) (filename : string) : bool :=
  existsb (fun t => Str.endswith filename ("." ++ t)%string) types.

Definition record (i : Z) (d : RawDate) (region state city category : string)
           (sales : Z) : Row RawDate :=
  mkRow i d (Some region) (Some state) (Some city) (Some category)
        (Some sales) [("Quantity", CNum 1)].

Definition superstore : Table RawDate :=
  mkTable ["Quantity"]
    [ record 0 (Text "05/01/2017") "West" "California" "Los Angeles" "Furniture" 200;
      record 1 (Text "20/02/2017") "East" "New York" "New York City" "Technology" 300;
      record 2 (Text "someday") "West" "Oregon" "Portland" "Furniture" 50;
      record 3 (Text "03/03/2017") "West" "California" "San Francisco" "Furniture" 120;
      record 4 (Stamp (day 17180)) "West" "Washington" "Seattle" "Technology" 75 ].

Definition read_csv (encoding : string) (src : list Byte.byte)
  : option (Table RawDate) :=
  if String.eqb encoding "ISO-8859-1" then Some superstore else None.

Definition read_excel (src : list Byte.byte) : option (Table RawDate) := None.

(** The user uploads [sales.csv], keeps January and February, picks West. *)
Definition visit : Env :=
  mkEnv None
        (Some (mkUpload "sales.csv" []))
        None
        (fun label _ =>
           if String.eqb label "Start Date" then day 17167 else day 17225)
        (fun label _ =>
           if String.eqb label "Pick your Region" then [Some "West"] else []).

(** The same visit with nothing picked in the sidebar. *)
Definition visit_unfiltered : Env :=
  mkEnv None (uploaded visit) None (date_input visit) (fun _ _ => []).

(** No upload and no file at the default path. *)
Definition visit_empty : Env :=
  mkEnv None None None (date_input visit) (multiselect visit).

(** A machine without plotly. *)
Definition visit_no_plotly : Env :=
  mkEnv (Some "No module named 'plotly'") (uploaded visit) None
        (date_input visit) (multiselect visit).


(** An upload the Excel reader is asked to read. *)
Definition visit_excel : Env :=
  mkEnv None (Some (mkUpload "sales.xlsx" [])) None
        (date_input visit) (multiselect visit).



(** The user changes nothing: the date inputs return their defaults and
    nothing is picked. *)
Definition visit_untouched : Env :=
  mkEnv None (uploaded visit) None
        (fun _ default => match default with Some d => d | None => 0 end)
        (fun _ _ => []).

End Sample.

(** ** The script *)

Section Dashboard.

Import Pandas Streamlit.

(** *** Library behaviour the script relies on but does not decide *)

(** The text parser behind [pd.to_datetime(col, dayfirst=True)].  It is
    given the whole column next to the text of one cell, since pandas may
    settle on one format for a column before it reads the cells. *)
Variable parse_datetime : list RawDate -> string -> option Timestamp.
(** [ts.to_period("M")], as the ordinal of the month. *)
Variable to_period_M : Timestamp -> Z.
(** [period.strftime("%Y-%b")] *)
Variable strftime_Y_b : Z -> string.
(** [ts.month_name()] *)
Variable month_name : Timestamp -> string.
(** [pd.read_csv(src, encoding=...)] and [pd.read_excel(src)]; [None] when
    the reader raises. *)
Variable read_csv : string -> list Byte.byte -> option (Table RawDate).
Variable read_excel : list Byte.byte -> option (Table RawDate).
(** The text of one CSV field (number formatting, quoting). *)
Variable csv_field : Cell -> string.
(** The uploader's check of a file name against its [type] list. *)
Variable accepts : list string -> string -> bool.

Local Notation "x <- m ;; k" := (bind m (fun x => k))
  (at level 61, m at next level, right associativity).
Local Notation "m ;; k" := (bind m (fun _ => k))
  (at level 61, right associativity).

(** *** Lines 9-16: the guarded import *)

Definition import_plotly (env : Env) : App unit :=
  match plotly_import env with
  | None => ret tt
  | Some e =>
      emit (error "⚠️ Required package 'plotly' is not installed or failed to import.") ;;
      emit (info "Install it using: `pip install plotly`") ;;
      emit (write ("Import error: " ++ e)%string) ;;
      stop
  end.

(** *** Lines 24-41: loading *)

Definition upload_types : list string := ["csv"; "txt"; "xlsx"; "xls"].

Definition file_uploader (env : Env) : option UploadedFile :=
  match uploaded env with
  | Some f => if accepts upload_types (name f) then Some f else None
  | None => None
  end.

Inductive Reader : Type :=
| CsvReader (encoding : string)
| ExcelReader.

Definition reader_for (filename : string) : Reader :=
  if Str.endswith filename ".csv" || Str.endswith filename ".txt"
  then CsvReader "ISO-8859-1"
  else ExcelReader.

Definition read_with (r : Reader) (src : list Byte.byte)
  : option (Table RawDate) :=
  match r with
  | CsvReader encoding => read_csv encoding src
  | ExcelReader => read_excel src
  end.

Definition load (env : Env) : App (Table RawDate) :=
  match file_uploader env with
  | Some fl =>
      emit (write ("✅ Uploaded File: " ++ name fl)%string) ;;
      call (read_with (reader_for (name fl)) (content fl))
  | None =>
      match default_file env with
      | Some src => call (read_csv "ISO-8859-1" src)
      | None =>
          emit (error "❌ Default dataset not found. Please upload a file.") ;;
          stop
      end
  end.

(** *** Lines 45-48: date coercion, unparseable rows dropped *)

Definition parsed (df : Table RawDate) (c : RawDate) : option Timestamp :=
  to_datetime (parse_datetime (map Order_Date (rows df))) c.

Definition coerce (df : Table RawDate) : DTable :=
  assign_Order_Date (parsed df) df.

Definition load_and_coerce (df : Table RawDate) : DTable :=
  dropna (coerce df).

(** *** Line 61: the date range *)

Definition date_range (date1 date2 : Timestamp) (df : DTable) : DTable :=
  select (fun r => ge date1 r && le date2 r) df.

(** *** Lines 71-77: the sidebar filters

    [if sel: t = t[t[col].isin(sel)]]; an empty list is falsy. *)

Definition pick (sel : list (option string)) (col : DRow -> option string)
           (t : DTable) : DTable :=
  match sel with
  | [] => t
  | _ :: _ => select (fun r => isin sel (col r)) t
  end.

Definition filter_logic (region state city : list (option string))
           (df : DTable) : DTable :=
  pick city City (pick state State (pick region Region df)).

(** *** Lines 82, 93, 112-115, 149: the aggregate tables and the columns
    added on the way *)

Definition category_agg (filtered_df : DTable) : Agg :=
  groupby_sum Category (rows filtered_df).

Definition region_agg (filtered_df : DTable) : Agg :=
  groupby_sum Region (rows filtered_df).

Definition month_year_cell (r : DRow) : Cell :=
  match Order_Date r with
  | Some t => CPeriod (to_period_M t)
  | None => CNaN
  end.

Definition month_year_label (r : DRow) : option string :=
  match get_cell "month_year" (others r) with
  | CPeriod p => Some (strftime_Y_b p)
  | _ => None
  end.

(** Line 112 *)
Definition with_month_year (filtered_df : DTable) : DTable :=
  assign "month_year" month_year_cell filtered_df.

(** Line 115, on the table line 112 leaves *)
Definition linechart_agg (filtered_df : DTable) : Agg :=
  groupby_sum month_year_label (rows (with_month_year filtered_df)).

(** Line 149 *)
Definition month_cell (r : DRow) : Cell :=
  match Order_Date r with
  | Some t => CStr (month_name t)
  | None => CNaN
  end.

Definition with_month (filtered_df : DTable) : DTable :=
  assign "month" month_cell filtered_df.

(** *** The CSV behind a download button *)

Definition csv_bytes (f : Frame) : list Byte.byte :=
  encode_utf8 (to_csv csv_field false f).

(** *** The whole script *)

(** The script's variables as a finished run leaves them.  [df_loaded] is
    [df] as line 42 finds it, [filtered_df] is the value lines 71-77
    build, [filtered_df_end] the same variable after lines 112 and 149
    have added their columns. *)
Record Vars : Type := mkVars {
  df_loaded       : Table RawDate;
  date1           : Timestamp;
  date2           : Timestamp;
  region          : list (option string);
  state           : list (option string);
  city            : list (option string);
  df              : DTable;
  filtered_df     : DTable;
  category_df     : Agg;
  region_df       : Agg;
  linechart       : Agg;
  filtered_df_end : DTable
}.

Definition script (env : Env) : App Vars :=
  import_plotly env ;;
  df_loaded <- load env ;;
  let df := coerce df_loaded in
  let df := dropna df in
  let startDate := col_min df in
  let endDate := col_max df in
  let date1 := date_input env "Start Date" startDate in
  let date2 := date_input env "End Date" endDate in
  let df := date_range date1 date2 df in
  let region :=
    multiselect env "Pick your Region" (unique (map Region (rows df))) in
  let state :=
    multiselect env "Pick your State" (unique (map State (rows df))) in
  let city :=
    multiselect env "Pick your City" (unique (map City (rows df))) in
  let filtered_df := filter_logic region state city df in
  let category_df := category_agg filtered_df in
  let region_df := region_agg filtered_df in
  emit (download_button "Download Category Data"
          (csv_bytes (frame_of_agg "Category" category_df))
          "Category.csv" "text/csv") ;;
  emit (download_button "Download Region Data"
          (csv_bytes (frame_of_agg "Region" region_df))
          "Region.csv" "text/csv") ;;
  let filtered_df_end := with_month_year filtered_df in
  let linechart := groupby_sum month_year_label (rows filtered_df_end) in
  emit (download_button "Download Time Series Data"
          (csv_bytes (frame_of_agg "month_year" linechart))
          "TimeSeries.csv" "text/csv") ;;
  let filtered_df_end := with_month filtered_df_end in
  emit (download_button "⬇️ Download Original Data"
          (csv_bytes (frame_of_table df))
          "Data.csv" "text/csv") ;;
  ret (mkVars df_loaded date1 date2 region state city df filtered_df
              category_df region_df linechart filtered_df_end).

(** One run: the script on an empty page. *)
Definition run (env : Env) : Result Vars * list UI := script env [].

(** *** What a finished run is expected to have done *)

(** The four download buttons, in page order. *)
Definition downloads (v : Vars) : list UI :=
  [ download_button "Download Category Data"
      (csv_bytes (frame_of_agg "Category" (category_df v)))
      "Category.csv" "text/csv";
    download_button "Download Region Data"
      (csv_bytes (frame_of_agg "Region" (region_df v)))
      "Region.csv" "text/csv";
    download_button "Download Time Series Data"
      (csv_bytes (frame_of_agg "month_year" (linechart v)))
      "TimeSeries.csv" "text/csv";
    download_button "⬇️ Download Original Data"
      (csv_bytes (frame_of_table (df v)))
      "Data.csv" "text/csv" ].

(** How the variables of a finished run hang together. *)
Record linked (env : Env) (v : Vars) : Prop := mkLinked {
  linked_date1 :
    date1 v = date_input env "Start Date"
                         (col_min (load_and_coerce (df_loaded v)));
  linked_date2 :
    date2 v = date_input env "End Date"
                         (col_max (load_and_coerce (df_loaded v)));
  linked_df :
    df v = date_range (date1 v) (date2 v) (load_and_coerce (df_loaded v));
  linked_region :
    region v = multiselect env "Pick your Region"
                           (unique (map Region (rows (df v))));
  linked_state :
    state v = multiselect env "Pick your State"
                          (unique (map State (rows (df v))));
  linked_city :
    city v = multiselect env "Pick your City"
                         (unique (map City (rows (df v))));
  linked_filtered :
    filtered_df v = filter_logic (region v) (state v) (city v) (df v);
  linked_category : category_df v = category_agg (filtered_df v);
  linked_region_df : region_df v = region_agg (filtered_df v);
  linked_linechart : linechart v = linechart_agg (filtered_df v);
  linked_end :
    filtered_df_end v = with_month (with_month_year (filtered_df v))
}.

(** The Order Date of a row is a parsed date. *)
Definition valid_date (r : DRow) : Prop := exists d, Order_Date r = Some d.

(** The filtering stage said in one predicate: a parsed date within the
    range, and membership in every selection that is not empty. *)
Definition chosen (sel : list (option string)) (c : option string) : bool :=
  match sel with
  | [] => true
  | _ :: _ => isin sel c
  end.

Definition survives (d1 d2 : Timestamp) (region state city : list (option string))
           (r : DRow) : bool :=
  notna r && (ge d1 r && le d2 r)
  && chosen region (Region r) && chosen state (State r)
  && chosen city (City r).

(** *** Further parts of the script *)


(** Line 145: [filtered_df.head(5)[[...]]], on the table as it stands
    there. *)
Definition sample_columns : list string :=
  ["Region"; "State"; "City"; "Category"; "Sales"; "Profit"; "Quantity"].

Definition df_sample (filtered_df : DTable) : option Frame :=
  project sample_columns (head 5 filtered_df).


(** ** Facts about the dataframe fragment *)

Lemma ostr_eqb_eq (a b : option string) : ostr_eqb a b = true <-> a = b.
Proof.
  destruct a as [x|], b as [y|]; simpl; try (split; congruence).
  rewrite String.eqb_eq. split; congruence.
Qed.

Lemma isin_In (values : list (option string)) (c : option string) :
  isin values c = true <-> In c values.
Proof.
  unfold isin. rewrite existsb_exists. split.
  - intros [x [Hx He]]. apply ostr_eqb_eq in He. now subst.
  - intros H. exists c. split; [exact H | now apply ostr_eqb_eq].
Qed.

Lemma isin_nil (c : option string) : isin [] c = false.
Proof. reflexivity. Qed.

(** *** The order on keys *)

Lemma ascii_compare_refl (a : ascii) : Ascii.compare a a = Eq.
Proof. unfold Ascii.compare. apply N.compare_refl. Qed.

Lemma ascii_lt_trans (a b c : ascii) :
  Ascii.compare a b = Lt -> Ascii.compare b c = Lt -> Ascii.compare a c = Lt.
Proof.
  unfold Ascii.compare. rewrite !N.compare_lt_iff. apply N.lt_trans.
Qed.



Lemma str_lt_trans (a b c : string) : Str.lt a b -> Str.lt b c -> Str.lt a c.
Proof.
  unfold Str.lt. revert b c.
  induction a as [|x a IH]; intros [|y b] [|z c]; simpl; try congruence.
  destruct (Ascii.compare x y) eqn:Hxy; try discriminate;
    destruct (Ascii.compare y z) eqn:Hyz; try discriminate; intros H1 H2.
  - apply Ascii.compare_eq_iff in Hxy, Hyz. subst.
    rewrite ascii_compare_refl. eauto.
  - apply Ascii.compare_eq_iff in Hxy. subst. now rewrite Hyz.
  - apply Ascii.compare_eq_iff in Hyz. subst. now rewrite Hxy.
  - now rewrite (ascii_lt_trans _ _ _ Hxy Hyz).
Qed.

Lemma str_compare_gt_lt (a b : string) :
  String.compare a b = Gt -> Str.lt b a.
Proof.
  unfold Str.lt. intros H. rewrite String.compare_antisym, H. reflexivity.
Qed.

(** *** One step of the group-by *)

Lemma keys_group_add (k : string) (v : Z) (acc : Agg) (k' : string) :
  In k' (keys (group_add k v acc)) <-> k' = k \/ In k' (keys acc).
Proof.
  induction acc as [|[k0 s0] acc IH]; simpl.
  - intuition.
  - destruct (String.compare k k0) eqn:Hc; simpl.
    + apply String.compare_eq_iff in Hc. subst k0. intuition.
    + intuition.
    + unfold keys in IH. rewrite IH. intuition.
Qed.

Lemma sorted_group_add (k : string) (v : Z) (acc : Agg) :
  StronglySorted Str.lt (keys acc) ->
  StronglySorted Str.lt (keys (group_add k v acc)).
Proof.
  induction acc as [|[k0 s0] acc IH]; simpl; intros Hs.
  - constructor; constructor.
  - inversion Hs as [|? ? Hs' Hall]; subst.
    destruct (String.compare k k0) eqn:Hc; simpl.
    + constructor; assumption.
    + constructor; [exact Hs|].
      constructor; [exact Hc|].
      eapply Forall_impl; [|exact Hall].
      intros x Hx. eapply str_lt_trans; [exact Hc | exact Hx].
    + constructor; [now apply IH|].
      apply Forall_forall. intros x Hx.
      apply keys_group_add in Hx. destruct Hx as [->|Hx].
      * now apply str_compare_gt_lt.
      * rewrite Forall_forall in Hall. now apply Hall.
Qed.








(** *** The whole group-by *)

Section GroupBy.

Context {D : Type} (key : Row D -> option string).


Lemma groupby_acc_sorted (l : list (Row D)) (acc : Agg) :
  StronglySorted Str.lt (keys acc) ->
  StronglySorted Str.lt (keys (fold_left (group_step key) l acc)).
Proof.
  revert acc. induction l as [|r l IH]; intros acc Hs; simpl; [exact Hs|].
  apply IH. unfold group_step. destruct (key r); [|exact Hs].
  now apply sorted_group_add.
Qed.



Lemma groupby_sum_sorted (l : list (Row D)) :
  StronglySorted Str.lt (keys (groupby_sum key l)).
Proof. apply groupby_acc_sorted. constructor. Qed.




End GroupBy.

(** ** Facts about the script *)

Lemma import_plotly_fails (env : Env) (e : string) :
  plotly_import env = Some e ->
  run env
  = (Halt,
     [ error "⚠️ Required package 'plotly' is not installed or failed to import.";
       info "Install it using: `pip install plotly`";
       write ("Import error: " ++ e)%string ]).
Proof.
  intros H. unfold run, script, bind, import_plotly. rewrite H. reflexivity.
Qed.

Lemma load_no_dataset (env : Env) (page : list UI) :
  file_uploader env = None -> default_file env = None ->
  load env page
  = (Halt, page ++ [error "❌ Default dataset not found. Please upload a file."]).
Proof. intros H1 H2. unfold load. rewrite H1, H2. reflexivity. Qed.

(** After a successful import the outcome is the loader's, and a loaded
    table always leads to a finished run. *)
Lemma run_after_import (env : Env) :
  plotly_import env = None ->
  match load env [] with
  | (Val t, pre) =>
      exists v, run env = (Val v, pre ++ downloads v)
                /\ df_loaded v = t /\ linked env v
  | (Halt, pre) => run env = (Halt, pre)
  | (Exn, pre) => run env = (Exn, pre)
  end.
Proof.
  intros H. unfold run, script, bind, import_plotly. rewrite H.
  cbv beta iota delta [ret emit].
  destruct (load env []) as [[t| |] pre]; try reflexivity.
  match goal with |- exists v, (Val ?x, _) = _ /\ _ => exists x end.
  split.
  - f_equal. rewrite <- !app_assoc. reflexivity.
  - split; [reflexivity|]. constructor; reflexivity.
Qed.

Lemma run_finished (env : Env) (v : Vars) (page : list UI) :
  run env = (Val v, page) ->
  plotly_import env = None
  /\ linked env v
  /\ exists pre, load env [] = (Val (df_loaded v), pre)
                 /\ page = pre ++ downloads v.
Proof.
  intros Hrun.
  destruct (plotly_import env) as [e|] eqn:Hp.
  - rewrite (import_plotly_fails env e Hp) in Hrun. discriminate.
  - split; [reflexivity|].
    pose proof (run_after_import env Hp) as H.
    destruct (load env []) as [[t| |] pre].
    + destruct H as [v' [Hv' [Ht Hl]]]. rewrite Hv' in Hrun.
      inversion Hrun; subst. split; [exact Hl|].
      exists pre. split; reflexivity.
    + rewrite H in Hrun. discriminate.
    + rewrite H in Hrun. discriminate.
Qed.

(** The loader writes no error unless it stops. *)
Lemma load_outcome (env : Env) :
  match load env [] with
  | (Val _, pre) | (Exn, pre) => forall msg, ~ In (error msg) pre
  | (Halt, pre) =>
      file_uploader env = None /\ default_file env = None
      /\ pre = [error "❌ Default dataset not found. Please upload a file."]
  end.
Proof.
  unfold load, bind, emit, call, ret, raise, stop.
  destruct (file_uploader env) as [fl|].
  - simpl. destruct (read_with _ _); intros msg [H|[]]; discriminate.
  - destruct (default_file env) as [src|].
    + destruct (read_csv _ _); intros msg [].
    + simpl. auto.
Qed.

(** ** Facts about the filtering stages *)

Lemma In_select {D} (mask : Row D -> bool) (t : Table D) (r : Row D) :
  In r (rows (select mask t)) <-> In r (rows t) /\ mask r = true.
Proof. unfold select. cbn [rows]. apply filter_In. Qed.

Lemma In_coerce (raw : Table RawDate) (r : DRow) :
  In r (rows (coerce raw))
  <-> exists r0, In r0 (rows raw)
                 /\ r = set_Order_Date (parsed raw) r0.
Proof.
  unfold coerce, assign_Order_Date. cbn [rows]. rewrite in_map_iff.
  split; intros [r0 [H1 H2]]; exists r0; auto.
Qed.

Lemma notna_valid (r : DRow) : notna r = true <-> valid_date r.
Proof.
  unfold notna, valid_date. destruct (Order_Date r) as [d|].
  - split; [eauto | reflexivity].
  - split; [discriminate | intros [d H]; discriminate].
Qed.

Lemma In_load_and_coerce (raw : Table RawDate) (r : DRow) :
  In r (rows (load_and_coerce raw))
  <-> In r (rows (coerce raw)) /\ valid_date r.
Proof. unfold load_and_coerce, dropna. now rewrite In_select, notna_valid. Qed.

Lemma between_spec (d1 d2 : Timestamp) (r : DRow) :
  ge d1 r && le d2 r = true
  <-> exists d, Order_Date r = Some d /\ d1 <= d <= d2.
Proof.
  unfold ge, le. destruct (Order_Date r) as [d|]; simpl.
  - rewrite andb_true_iff, !Z.leb_le. split.
    + intros H. exists d. split; [reflexivity | lia].
    + intros [d' [H1 H2]]. inversion H1; subst. lia.
  - split; [discriminate | intros [d [H _]]; discriminate].
Qed.

Lemma In_date_range (d1 d2 : Timestamp) (t : DTable) (r : DRow) :
  In r (rows (date_range d1 d2 t))
  <-> In r (rows t) /\ exists d, Order_Date r = Some d /\ d1 <= d <= d2.
Proof. unfold date_range. now rewrite In_select, between_spec. Qed.

Lemma pick_nil (col : DRow -> option string) (t : DTable) : pick [] col t = t.
Proof. reflexivity. Qed.

Lemma In_pick (sel : list (option string)) (col : DRow -> option string)
      (t : DTable) (r : DRow) :
  In r (rows (pick sel col t))
  <-> In r (rows t) /\ (sel <> [] -> In (col r) sel).
Proof.
  destruct sel as [|x sel]; cbn [pick].
  - split; [intros H; split; [exact H | congruence] | tauto].
  - rewrite In_select, isin_In. split.
    + intros [H1 H2]. auto.
    + intros [H1 H2]. split; [exact H1 | apply H2; discriminate].
Qed.

Lemma In_filter_logic (region state city : list (option string))
      (t : DTable) (r : DRow) :
  In r (rows (filter_logic region state city t))
  <-> In r (rows t)
      /\ (region <> [] -> In (Region r) region)
      /\ (state <> [] -> In (State r) state)
      /\ (city <> [] -> In (City r) city).
Proof. unfold filter_logic. rewrite !In_pick. tauto. Qed.

Lemma Forall_select {D} (P : Row D -> Prop) (mask : Row D -> bool)
      (t : Table D) :
  Forall P (rows t) -> Forall P (rows (select mask t)).
Proof.
  rewrite !Forall_forall. intros H r Hr. apply In_select in Hr. apply H, Hr.
Qed.

Lemma Forall_pick (P : DRow -> Prop) (sel : list (option string))
      (col : DRow -> option string) (t : DTable) :
  Forall P (rows t) -> Forall P (rows (pick sel col t)).
Proof.
  destruct sel; cbn [pick]; [auto | apply Forall_select].
Qed.

Lemma Forall_assign (name : string) (f : DRow -> Cell) (t : DTable) :
  Forall valid_date (rows t) -> Forall valid_date (rows (assign name f t)).
Proof.
  unfold assign. cbn [rows]. rewrite !Forall_forall. intros H r Hr.
  apply in_map_iff in Hr. destruct Hr as [r0 [<- Hr0]].
  exact (H r0 Hr0).
Qed.

Lemma valid_load_and_coerce (raw : Table RawDate) :
  Forall valid_date (rows (load_and_coerce raw)).
Proof.
  apply Forall_forall. intros r Hr. apply In_load_and_coerce in Hr. tauto.
Qed.

Lemma valid_date_range (d1 d2 : Timestamp) (t : DTable) :
  Forall valid_date (rows t) -> Forall valid_date (rows (date_range d1 d2 t)).
Proof. apply Forall_select. Qed.

Lemma valid_filter_logic (region state city : list (option string))
      (t : DTable) :
  Forall valid_date (rows t) ->
  Forall valid_date (rows (filter_logic region state city t)).
Proof. intros H. unfold filter_logic. now repeat apply Forall_pick. Qed.

(** ** [endswith] *)

Lemma substring_full (s : string) : substring 0 (String.length s) s = s.
Proof. induction s as [|a s IH]; simpl; [reflexivity | now rewrite IH]. Qed.

Lemma substring_skip (p q : string) (m : nat) :
  substring (String.length p) m (p ++ q)%string = substring 0 m q.
Proof. induction p as [|a p IH]; simpl; [reflexivity | exact IH]. Qed.

Lemma substring_split (s : string) (n : nat) :
  (n <= String.length s)%nat ->
  s = (substring 0 n s
       ++ substring n (String.length s - n) s)%string.
Proof.
  revert n. induction s as [|a s IH]; intros [|n] Hn; simpl in *;
    try reflexivity; try lia.
  - now rewrite substring_full.
  - f_equal. apply IH. lia.
Qed.

Lemma length_append (p q : string) :
  String.length (p ++ q)%string = (String.length p + String.length q)%nat.
Proof. induction p as [|a p IH]; simpl; [reflexivity | now rewrite IH]. Qed.

(** [endswith] is the suffix relation, byte for byte. *)
Lemma endswith_suffix (s suffix : string) :
  Str.endswith s suffix = true <-> exists p, s = (p ++ suffix)%string.
Proof.
  unfold Str.endswith. rewrite andb_true_iff, Nat.leb_le, String.eqb_eq.
  split.
  - intros [Hlen Hsub].
    remember (String.length s - String.length suffix)%nat as n eqn:Hn.
    exists (substring 0 n s).
    assert (Hle : (n <= String.length s)%nat) by lia.
    pose proof (substring_split s n Hle) as Hs.
    replace (String.length s - n)%nat with (String.length suffix) in Hs by lia.
    now rewrite Hsub in Hs.
  - intros [p ->]. rewrite length_append. split; [lia|].
    replace (String.length p + String.length suffix - String.length suffix)%nat
      with (String.length p) by lia.
    rewrite substring_skip. apply substring_full.
Qed.

(** ** Facts about the page and the CSV text *)

Lemma load_page_shape (env : Env) (u : UI) :
  In u (snd (load env [])) ->
  (exists msg, u = write msg) \/ (exists msg, u = error msg).
Proof.
  unfold load, bind, emit, call, ret, raise, stop.
  destruct (file_uploader env) as [fl|].
  - simpl. destruct (read_with _ _); simpl; intros [<-|[]]; eauto.
  - destruct (default_file env) as [src|].
    + destruct (read_csv _ _); intros [].
    + simpl. intros [<-|[]]; eauto.
Qed.

Lemma downloads_no_error (v : Vars) (msg : string) :
  ~ In (error msg) (downloads v).
Proof.
  unfold downloads. simpl. intros [H|[H|[H|[H|[]]]]]; discriminate.
Qed.

Lemma range_index_cells {A} (l : list A) (i : Z) :
  map snd (range_index i l) = l.
Proof.
  revert i. induction l as [|x l IH]; intros i; simpl;
    [reflexivity | now rewrite IH].
Qed.

(** Written without its index, a frame is a function of its column
    names and cells alone. *)
Lemma to_csv_no_index (f g : Frame) :
  columns f = columns g ->
  map snd (lines f) = map snd (lines g) ->
  to_csv csv_field false f = to_csv csv_field false g.
Proof.
  intros Hc Hl. unfold to_csv. rewrite Hc. f_equal. f_equal.
  cbn [app].
  rewrite <- (map_map snd (fun cells => csv_line (map csv_field cells))).
  rewrite <- (map_map snd (fun cells => csv_line (map csv_field cells))
                      (lines g)).
  now rewrite Hl.
Qed.

(** ** The filtering stages as one filter *)

Lemma filter_filter {A} (f g : A -> bool) (l : list A) :
  filter f (filter g l) = filter (fun x => g x && f x) l.
Proof.
  induction l as [|x l IH]; simpl; [reflexivity|].
  destruct (g x); simpl; [destruct (f x)|]; now rewrite IH.
Qed.

Lemma filter_all {A} (l : list A) : filter (fun _ => true) l = l.
Proof. induction l as [|x l IH]; simpl; [reflexivity | now rewrite IH]. Qed.

Lemma rows_pick (sel : list (option string)) (col : DRow -> option string)
      (t : DTable) :
  rows (pick sel col t) = filter (fun r => chosen sel (col r)) (rows t).
Proof.
  destruct sel as [|x sel]; cbn [pick chosen].
  - symmetry. apply filter_all.
  - reflexivity.
Qed.

(** The three stages of lines 48-77 are one pass of [filter], which keeps
    the order of the rows and how often each occurs. *)
Lemma filtering_is_one_filter (raw : Table RawDate) (d1 d2 : Timestamp)
      (region state city : list (option string)) :
  rows (filter_logic region state city (date_range d1 d2 (load_and_coerce raw)))
  = filter (survives d1 d2 region state city) (rows (coerce raw)).
Proof.
  unfold filter_logic. rewrite !rows_pick.
  unfold date_range, load_and_coerce, dropna, select. cbn [rows].
  rewrite !filter_filter. apply filter_ext.
  intros r. unfold survives. now rewrite !andb_assoc.
Qed.

(** ** The claims *)

(** C1.  In a finished run, a row of the loaded table survives the
    filtering stage (it is a row of [filtered_df]) if and only if its
    Order Date parses to a date between the chosen start and end dates,
    both ends included, and, for each of Region, State and City whose
    selection is not empty, its value in that column is among the
    selected ones.  The stage is one filter by that conjunction: the
    surviving rows keep their order and their number of occurrences. *)
Theorem filtering_is_conjunction
        (env : Env) (v : Vars) (page : list UI) :
  run env = (Val v, page) ->
  rows (filtered_df v)
  = filter (survives (date1 v) (date2 v) (region v) (state v) (city v))
           (map (set_Order_Date (parsed (df_loaded v))) (rows (df_loaded v)))
  /\ forall r0,
       In r0 (rows (df_loaded v)) ->
       (In (set_Order_Date (parsed (df_loaded v)) r0) (rows (filtered_df v))
        <-> (exists d, parsed (df_loaded v) (Order_Date r0) = Some d
                       /\ date1 v <= d <= date2 v)
            /\ (region v <> [] -> In (Region r0) (region v))
            /\ (state v <> [] -> In (State r0) (state v))
            /\ (city v <> [] -> In (City r0) (city v))).
Proof.
  intros Hrun. apply run_finished in Hrun. destruct Hrun as [_ [L _]].
  rewrite (linked_filtered _ _ L), (linked_df _ _ L).
  split; [apply filtering_is_one_filter|].
  intros r0 Hin.
  rewrite In_filter_logic, In_date_range, In_load_and_coerce, In_coerce.
  cbn [set_Order_Date Order_Date Region State City].
  split.
  - intros [[_ Hd] Hsel]. tauto.
  - intros [[d Hd] Hsel]. split; [|exact Hsel].
    split; [|now exists d]. split.
    + exists r0. split; [exact Hin | reflexivity].
    + exists d. cbn [Order_Date]. tauto.
Qed.

(** C2.  After the load-and-coerce step every retained row carries a
    parsed Order Date, a loaded row being retained exactly when its
    Order Date parses; the date-range filter, the sidebar filters and
    the column-adding steps before the monthly aggregations keep that
    property, so it holds of [df], [filtered_df] and [filtered_df_end]
    in every finished run. *)
Theorem order_date_stays_valid (raw : Table RawDate) :
  Forall valid_date (rows (load_and_coerce raw))
  /\ (forall r0, In r0 (rows raw) ->
        (In (set_Order_Date (parsed raw) r0) (rows (load_and_coerce raw))
         <-> exists d, parsed raw (Order_Date r0) = Some d))
  /\ (forall (t : DTable) d1 d2 region state city,
        Forall valid_date (rows t) ->
        Forall valid_date (rows (date_range d1 d2 t))
        /\ Forall valid_date (rows (filter_logic region state city t))
        /\ Forall valid_date (rows (with_month_year t))
        /\ Forall valid_date (rows (with_month t)))
  /\ (forall env v page,
        run env = (Val v, page) ->
        df_loaded v = raw ->
        Forall valid_date (rows (df v))
        /\ Forall valid_date (rows (filtered_df v))
        /\ Forall valid_date (rows (filtered_df_end v))).
Proof.
  split; [apply valid_load_and_coerce|].
  split.
  { intros r0 Hr0. rewrite In_load_and_coerce, In_coerce.
    unfold valid_date. cbn [set_Order_Date Order_Date]. split.
    - tauto.
    - intros Hd. split; [|exact Hd]. exists r0. auto. }
  split.
  { intros t d1 d2 region state city Ht.
    split; [now apply valid_date_range|].
    split; [now apply valid_filter_logic|].
    split; now apply Forall_assign. }
  intros env v page Hrun Hraw. apply run_finished in Hrun.
  destruct Hrun as [_ [L _]].
  assert (Hdf : Forall valid_date (rows (df v))).
  { rewrite (linked_df _ _ L). apply valid_date_range.
    apply valid_load_and_coerce. }
  assert (Hf : Forall valid_date (rows (filtered_df v))).
  { rewrite (linked_filtered _ _ L). now apply valid_filter_logic. }
  split; [exact Hdf|]. split; [exact Hf|].
  rewrite (linked_end _ _ L). unfold with_month, with_month_year.
  now repeat apply Forall_assign.
Qed.

(** C8.  A sidebar filter whose selection is empty leaves the table as
    it is: every row of the date-filtered table passes it.  A literal
    membership test against the empty selection would keep no row. *)
Theorem empty_selection_is_no_filter (t : DTable) :
  pick [] Region t = t
  /\ pick [] State t = t
  /\ pick [] City t = t
  /\ filter_logic [] [] [] t = t
  /\ (forall state city,
        filter_logic [] state city t = pick city City (pick state State t))
  /\ (forall region city,
        filter_logic region [] city t
        = pick city City (pick region Region t))
  /\ (forall region state,
        filter_logic region state [] t
        = pick state State (pick region Region t))
  /\ rows (select (fun r => isin [] (Region r)) t) = []
  /\ (forall env v page,
        run env = (Val v, page) ->
        df v = t ->
        region v = [] -> state v = [] -> city v = [] ->
        filtered_df v = t).
Proof.
  repeat split; try reflexivity.
  - unfold select. cbn [rows isin existsb].
    induction (rows t) as [|r l IH]; [reflexivity | exact IH].
  - intros env v page Hrun Hdf Hr Hs Hc. apply run_finished in Hrun.
    destruct Hrun as [_ [L _]].
    rewrite (linked_filtered _ _ L), Hr, Hs, Hc. exact Hdf.
Qed.




(** C4.  A run stops on purpose in exactly two cases: plotly fails to
    import, or no file is uploaded and the default dataset is missing.
    In both an error is put on the page and the run halts there.
    Nothing else is handled: a run that does not halt shows no error,
    and a reader that raises ends the run in an uncaught exception. *)
Theorem halts_in_exactly_two_cases (env : Env) :
  (forall e,
      plotly_import env = Some e ->
      run env
      = (Halt,
         [ error "⚠️ Required package 'plotly' is not installed or failed to import.";
           info "Install it using: `pip install plotly`";
           write ("Import error: " ++ e)%string ]))
  /\ (plotly_import env = None ->
      file_uploader env = None -> default_file env = None ->
      run env
      = (Halt, [error "❌ Default dataset not found. Please upload a file."]))
  /\ (fst (run env) = Halt
      <-> plotly_import env <> None
          \/ (file_uploader env = None /\ default_file env = None))
  /\ (fst (run env) = Halt -> exists msg, In (error msg) (snd (run env)))
  /\ (fst (run env) <> Halt -> forall msg, ~ In (error msg) (snd (run env)))
  /\ (plotly_import env = None ->
      forall fl,
        file_uploader env = Some fl ->
        read_with (reader_for (name fl)) (content fl) = None ->
        fst (run env) = Exn)
  /\ (plotly_import env = None ->
      file_uploader env = None ->
      forall src,
        default_file env = Some src ->
        read_csv "ISO-8859-1" src = None ->
        fst (run env) = Exn).
Proof.
  assert (Hstop : plotly_import env = None ->
                  file_uploader env = None -> default_file env = None ->
                  run env
                  = (Halt, [error "❌ Default dataset not found. Please upload a file."])).
  { intros Hp Hu Hd. pose proof (run_after_import env Hp) as H.
    now rewrite (load_no_dataset env [] Hu Hd) in H. }
  split; [intros e He; now apply import_plotly_fails|].
  split; [exact Hstop|].
  split.
  { split.
    - intros Hh. destruct (plotly_import env) as [e|] eqn:Hp;
        [left; discriminate | right].
      pose proof (run_after_import env Hp) as H.
      pose proof (load_outcome env) as Ho.
      destruct (load env []) as [[t| |] pre].
      + destruct H as [v [Hv _]]. rewrite Hv in Hh. discriminate.
      + tauto.
      + rewrite H in Hh. discriminate.
    - intros [Hp|[Hu Hd]].
      + destruct (plotly_import env) as [e|] eqn:He; [|congruence].
        now rewrite (import_plotly_fails env e He).
      + destruct (plotly_import env) as [e|] eqn:He.
        * now rewrite (import_plotly_fails env e He).
        * now rewrite (Hstop eq_refl Hu Hd). }
  split.
  { intros Hh. destruct (plotly_import env) as [e|] eqn:Hp.
    - rewrite (import_plotly_fails env e Hp). eexists. now left.
    - pose proof (run_after_import env Hp) as H.
      pose proof (load_outcome env) as Ho.
      destruct (load env []) as [[t| |] pre].
      + destruct H as [v [Hv _]]. rewrite Hv in Hh. discriminate.
      + destruct Ho as [_ [_ ->]]. rewrite H. eexists. now left.
      + rewrite H in Hh. discriminate. }
  split.
  { intros Hn msg. destruct (plotly_import env) as [e|] eqn:Hp.
    - rewrite (import_plotly_fails env e Hp) in Hn. now elim Hn.
    - pose proof (run_after_import env Hp) as H.
      pose proof (load_outcome env) as Ho.
      destruct (load env []) as [[t| |] pre].
      + destruct H as [v [Hv _]]. rewrite Hv. cbn [snd].
        rewrite in_app_iff. intros [Hin|Hin].
        * exact (Ho msg Hin).
        * exact (downloads_no_error v msg Hin).
      + rewrite H in Hn. now elim Hn.
      + rewrite H. exact (Ho msg). }
  split.
  { intros Hp fl Hu Hr. pose proof (run_after_import env Hp) as H.
    unfold load in H. rewrite Hu in H.
    unfold bind, emit, call in H. rewrite Hr in H. cbn in H.
    now rewrite H. }
  intros Hp Hu src Hd Hr. pose proof (run_after_import env Hp) as H.
  unfold load in H. rewrite Hu, Hd in H.
  unfold call in H. rewrite Hr in H. cbn in H. now rewrite H.
Qed.

(** C5.  The uploader is asked for csv, txt, xlsx and xls files.  An
    uploaded file whose name ends in .csv or .txt is read with the CSV
    reader under ISO-8859-1; every other accepted upload is read with
    the Excel reader. *)
Theorem upload_reader_choice (env : Env) (fl : UploadedFile) (page : list UI) :
  file_uploader env = Some fl ->
  uploaded env = Some fl
  /\ accepts ["csv"; "txt"; "xlsx"; "xls"] (name fl) = true
  /\ ((exists p, name fl = (p ++ ".csv")%string)
      \/ (exists p, name fl = (p ++ ".txt")%string) ->
      load env page
      = match read_csv "ISO-8859-1" (content fl) with
        | Some t => (Val t, page ++ [write ("✅ Uploaded File: " ++ name fl)%string])
        | None => (Exn, page ++ [write ("✅ Uploaded File: " ++ name fl)%string])
        end)
  /\ (~ (exists p, name fl = (p ++ ".csv")%string) ->
      ~ (exists p, name fl = (p ++ ".txt")%string) ->
      load env page
      = match read_excel (content fl) with
        | Some t => (Val t, page ++ [write ("✅ Uploaded File: " ++ name fl)%string])
        | None => (Exn, page ++ [write ("✅ Uploaded File: " ++ name fl)%string])
        end).
Proof.
  intros Hu.
  assert (Hup : uploaded env = Some fl
                /\ accepts upload_types (name fl) = true).
  { unfold file_uploader in Hu. destruct (uploaded env) as [f|]; [|discriminate].
    destruct (accepts upload_types (name f)) eqn:Ha; [|discriminate].
    inversion Hu; subst. auto. }
  split; [apply Hup|]. split; [apply Hup|].
  unfold load. rewrite Hu. unfold bind, emit, call, reader_for, read_with.
  split.
  - intros Hs.
    assert (Hb : Str.endswith (name fl) ".csv" || Str.endswith (name fl) ".txt"
                 = true).
    { apply orb_true_iff. rewrite !endswith_suffix. exact Hs. }
    rewrite Hb. destruct (read_csv _ _); reflexivity.
  - intros Hc Ht.
    assert (Hb : Str.endswith (name fl) ".csv" || Str.endswith (name fl) ".txt"
                 = false).
    { apply orb_false_iff. split; apply not_true_is_false;
        rewrite endswith_suffix; assumption. }
    rewrite Hb. destruct (read_excel _); reflexivity.
Qed.

(** C6.  A finished run offers the category-wise, the region-wise and
    the monthly time-series table each as a CSV download; the bytes are
    the UTF-8 encoding of that table, its rows in order under its two
    column names, written by [to_csv] with [index=False], so that they
    do not depend on the index labels. *)
Theorem aggregate_tables_are_downloadable
        (env : Env) (v : Vars) (page : list UI) :
  run env = (Val v, page) ->
  In (download_button "Download Category Data"
        (encode_utf8
           (to_csv csv_field false (frame_of_agg "Category" (category_df v))))
        "Category.csv" "text/csv") page
  /\ In (download_button "Download Region Data"
           (encode_utf8
              (to_csv csv_field false (frame_of_agg "Region" (region_df v))))
           "Region.csv" "text/csv") page
  /\ In (download_button "Download Time Series Data"
           (encode_utf8
              (to_csv csv_field false
                      (frame_of_agg "month_year" (linechart v))))
           "TimeSeries.csv" "text/csv") page
  /\ (forall key_name a,
         columns (frame_of_agg key_name a) = [key_name; "Sales"]
         /\ map snd (lines (frame_of_agg key_name a))
            = map (fun p => [CStr (fst p); CNum (snd p)]) a)
  /\ (forall f g,
         columns f = columns g ->
         map snd (lines f) = map snd (lines g) ->
         to_csv csv_field false f = to_csv csv_field false g).
Proof.
  intros Hrun. apply run_finished in Hrun.
  destruct Hrun as [_ [_ [pre [_ ->]]]].
  repeat split.
  - apply in_or_app. right. unfold downloads, csv_bytes. simpl. tauto.
  - apply in_or_app. right. unfold downloads, csv_bytes. simpl. tauto.
  - apply in_or_app. right. unfold downloads, csv_bytes. simpl. tauto.
  - unfold frame_of_agg. cbn [lines]. apply range_index_cells.
  - apply to_csv_no_index.
Qed.

(** C10.  The "Download Original Data" button of a finished run exports
    [df] as line 61 leaves it: the loaded table after date coercion,
    after the rows without a parsed date are dropped and after the
    date-range filter, written with [index=False] and encoded in UTF-8.
    The Region / State / City selections play no part in it, and no
    other button carries that label. *)
Theorem original_data_download (env : Env) (v : Vars) (page : list UI) :
  run env = (Val v, page) ->
  let exported :=
    date_range (date1 v) (date2 v) (dropna (coerce (df_loaded v))) in
  In (download_button "⬇️ Download Original Data"
        (encode_utf8 (to_csv csv_field false (frame_of_table exported)))
        "Data.csv" "text/csv") page
  /\ (forall data file_name mime,
         In (download_button "⬇️ Download Original Data" data file_name mime)
            page ->
         data = encode_utf8 (to_csv csv_field false (frame_of_table exported))
         /\ file_name = "Data.csv")
  /\ filtered_df v
     = filter_logic (region v) (state v) (city v) exported.
Proof.
  intros Hrun exported. apply run_finished in Hrun.
  destruct Hrun as [_ [L [pre [Hload ->]]]].
  assert (Hdf : df v = exported) by exact (linked_df _ _ L).
  split; [|split].
  - apply in_or_app. right. unfold downloads, csv_bytes. rewrite Hdf.
    simpl. tauto.
  - intros data file_name mime Hin. apply in_app_or in Hin.
    destruct Hin as [Hin|Hin].
    + pose proof (load_page_shape env
                    (download_button "⬇️ Download Original Data"
                                     data file_name mime)) as Hs.
      rewrite Hload in Hs.
      destruct (Hs Hin) as [[m Hm]|[m Hm]]; discriminate.
    + unfold downloads, csv_bytes in Hin. rewrite Hdf in Hin.
      simpl in Hin.
      destruct Hin as [H|[H|[H|[H|[]]]]]; try discriminate.
      inversion H. auto.
  - rewrite (linked_filtered _ _ L), Hdf. reflexivity.
Qed.

(** ** Further facts: options, selections, default dates *)

Lemma ostr_dec (a b : option string) : a = b \/ a <> b.
Proof.
  destruct (ostr_eqb a b) eqn:E.
  - left. now apply ostr_eqb_eq.
  - right. intros H. apply ostr_eqb_eq in H. congruence.
Qed.

Lemma isin_false (values : list (option string)) (c : option string) :
  isin values c = false <-> ~ In c values.
Proof.
  rewrite <- isin_In. destruct (isin values c); split; congruence.
Qed.

Lemma unique_acc_In (seen l : list (option string)) (c : option string) :
  In c (unique_acc seen l) <-> In c l /\ ~ In c seen.
Proof.
  revert seen. induction l as [|a l IH]; intros seen; simpl.
  - tauto.
  - destruct (isin seen a) eqn:E.
    + apply isin_In in E. rewrite IH. split.
      * tauto.
      * intros [[->|H] Hn]; tauto.
    + apply isin_false in E. simpl. rewrite IH. simpl.
      destruct (ostr_dec a c) as [->|Hne]; tauto.
Qed.

Lemma unique_acc_NoDup (seen l : list (option string)) :
  NoDup (unique_acc seen l).
Proof.
  revert seen. induction l as [|a l IH]; intros seen; simpl.
  - constructor.
  - destruct (isin seen a); [apply IH|].
    constructor; [|apply IH].
    rewrite unique_acc_In. simpl. tauto.
Qed.

Lemma unique_acc_fixed (seen l : list (option string)) :
  NoDup l -> (forall c, In c l -> ~ In c seen) -> unique_acc seen l = l.
Proof.
  revert seen. induction l as [|a l IH]; intros seen Hnd Hdis; simpl.
  - reflexivity.
  - inversion Hnd as [|? ? Hna Hnd']; subst.
    assert (E : isin seen a = false).
    { apply isin_false. apply Hdis. now left. }
    rewrite E. f_equal. apply IH; [exact Hnd'|].
    intros c Hc [<-|Hs]; [contradiction|].
    apply (Hdis c); [now right | exact Hs].
Qed.

Lemma filter_keeps_all {A} (f : A -> bool) (l : list A) :
  (forall x, In x l -> f x = true) -> filter f l = l.
Proof.
  induction l as [|x l IH]; intros H; simpl; [reflexivity|].
  rewrite (H x (or_introl eq_refl)). f_equal. apply IH.
  intros y Hy. apply H. now right.
Qed.

Lemma select_keeps_all {D} (mask : Row D -> bool) (t : Table D) :
  (forall r, In r (rows t) -> mask r = true) -> select mask t = t.
Proof.
  intros H. unfold select. rewrite (filter_keeps_all _ _ H).
  now destruct t.
Qed.

Lemma pick_keeps_all (sel : list (option string))
      (col : DRow -> option string) (t : DTable) :
  (forall r, In r (rows t) -> In (col r) sel) -> pick sel col t = t.
Proof.
  intros H. destruct sel as [|x sel]; [reflexivity|]. cbn [pick].
  apply select_keeps_all. intros r Hr. apply isin_In. now apply H.
Qed.

(** *** [min] and [max] of the date column *)

Section Best.

Variable best : Z -> Z -> Z.
Variable before : Z -> Z -> Prop.
Hypothesis before_refl : forall a, before a a.
Hypothesis before_trans : forall a b c, before a b -> before b c -> before a c.
Hypothesis best_l : forall a x, before (best a x) a.
Hypothesis best_r : forall a x, before (best a x) x.
Hypothesis best_one : forall a x, best a x = a \/ best a x = x.

Lemma best_acc_none (l : list (option Timestamp)) (acc : option Timestamp) :
  fold_left (opt_best best) l acc = None
  <-> acc = None /\ forall x, ~ In (Some x) l.
Proof.
  revert acc. induction l as [|c l IH]; intros acc; simpl.
  - split; [intros ->; split; [reflexivity | tauto] | tauto].
  - rewrite IH. destruct acc as [a|], c as [x|]; simpl; split.
    + intros [H _]. discriminate.
    + intros [H _]. discriminate.
    + intros [H _]. discriminate.
    + intros [H _]. discriminate.
    + intros [H _]. discriminate.
    + intros [_ H]. exfalso. apply (H x). now left.
    + intros [_ H]. split; [reflexivity|].
      intros x [Hx|Hx]; [discriminate | exact (H x Hx)].
    + intros [_ H]. split; [reflexivity|].
      intros x Hx. apply (H x). now right.
Qed.

Lemma best_acc_some (l : list (option Timestamp)) (acc : option Timestamp)
      (m : Timestamp) :
  fold_left (opt_best best) l acc = Some m ->
  (forall a, acc = Some a -> before m a)
  /\ (forall x, In (Some x) l -> before m x)
  /\ (acc = Some m \/ In (Some m) l).
Proof.
  revert acc. induction l as [|c l IH]; intros acc; simpl.
  - intros ->. split; [|split].
    + intros a Ha. inversion Ha; subst. apply before_refl.
    + tauto.
    + now left.
  - intros H. destruct (IH _ H) as [Hacc [Hl Hat]]. clear IH H.
    destruct acc as [a|], c as [x|]; simpl in *.
    + specialize (Hacc _ eq_refl). split; [|split].
      * intros a' Ha'. inversion Ha'; subst.
        eapply before_trans; [exact Hacc | apply best_l].
      * intros y [Hy|Hy]; [|now apply Hl]. inversion Hy; subst.
        eapply before_trans; [exact Hacc | apply best_r].
      * destruct Hat as [Hm|Hm]; [|tauto]. inversion Hm as [Hm'].
        destruct (best_one a x) as [E|E]; rewrite E; [now left|].
        right. left. reflexivity.
    + split; [exact Hacc|]. split.
      * intros y [Hy|Hy]; [discriminate | now apply Hl].
      * tauto.
    + specialize (Hacc _ eq_refl). split; [discriminate|]. split.
      * intros y [Hy|Hy]; [|now apply Hl]. now inversion Hy; subst.
      * destruct Hat as [Hm|Hm]; [|tauto]. right. now left.
    + split; [discriminate|]. split.
      * intros y [Hy|Hy]; [discriminate | now apply Hl].
      * destruct Hat as [Hm|Hm]; [discriminate | tauto].
Qed.

End Best.

Lemma col_min_some (t : DTable) (lo : Timestamp) :
  col_min t = Some lo ->
  (forall r d, In r (rows t) -> Order_Date r = Some d -> lo <= d)
  /\ exists r, In r (rows t) /\ Order_Date r = Some lo.
Proof.
  intros H. unfold col_min in H.
  apply (best_acc_some Z.min Z.le) in H; try (intros; lia).
  destruct H as [_ [Hall Hat]]. split.
  - intros r d Hr Hd. apply Hall. rewrite <- Hd. now apply in_map.
  - destruct Hat as [Hat|Hat]; [discriminate|].
    apply in_map_iff in Hat. destruct Hat as [r [H1 H2]]. eauto.
Qed.

Lemma col_max_some (t : DTable) (hi : Timestamp) :
  col_max t = Some hi ->
  (forall r d, In r (rows t) -> Order_Date r = Some d -> d <= hi)
  /\ exists r, In r (rows t) /\ Order_Date r = Some hi.
Proof.
  intros H. unfold col_max in H.
  apply (best_acc_some Z.max (fun a b => b <= a)) in H; try (intros; lia).
  destruct H as [_ [Hall Hat]]. split.
  - intros r d Hr Hd. apply Hall. rewrite <- Hd. now apply in_map.
  - destruct Hat as [Hat|Hat]; [discriminate|].
    apply in_map_iff in Hat. destruct Hat as [r [H1 H2]]. eauto.
Qed.

Lemma col_min_none (t : DTable) :
  col_min t = None <-> forall r, In r (rows t) -> Order_Date r = None.
Proof.
  unfold col_min. rewrite best_acc_none. split.
  - intros [_ H] r Hr. destruct (Order_Date r) as [d|] eqn:E; [|reflexivity].
    exfalso. apply (H d). rewrite <- E. now apply in_map.
  - intros H. split; [reflexivity|]. intros x Hx.
    apply in_map_iff in Hx. destruct Hx as [r [H1 H2]].
    rewrite (H r H2) in H1. discriminate.
Qed.

Lemma col_max_none (t : DTable) :
  col_max t = None <-> forall r, In r (rows t) -> Order_Date r = None.
Proof.
  unfold col_max. rewrite best_acc_none. split.
  - intros [_ H] r Hr. destruct (Order_Date r) as [d|] eqn:E; [|reflexivity].
    exfalso. apply (H d). rewrite <- E. now apply in_map.
  - intros H. split; [reflexivity|]. intros x Hx.
    apply in_map_iff in Hx. destruct Hx as [r [H1 H2]].
    rewrite (H r H2) in H1. discriminate.
Qed.




(** ** Further properties of the script *)

(** X1.  The options a sidebar multiselect offers ([col.unique()], lines
    66-68) are the values of the column, each once; a column without
    repetitions is offered as it stands, in its order. *)
Theorem sidebar_options_are_the_distinct_values (l : list (option string)) :
  NoDup (unique l)
  /\ (forall c, In c (unique l) <-> In c l)
  /\ (NoDup l -> unique l = l)
  /\ unique (unique l) = unique l.
Proof.
  unfold unique. split; [apply unique_acc_NoDup|].
  split; [intros c; rewrite unique_acc_In; simpl; tauto|].
  split.
  - intros H. apply unique_acc_fixed; [exact H | auto].
  - apply unique_acc_fixed; [apply unique_acc_NoDup | auto].
Qed.

(** X2.  Picking every option a multiselect offers filters nothing out:
    the stage returns the table it was given, and so does the whole
    sidebar logic when every option of all three is picked. *)
Theorem picking_every_option_keeps_every_row (t : DTable) :
  (forall col, pick (unique (map col (rows t))) col t = t)
  /\ filter_logic (unique (map Region (rows t)))
                  (unique (map State (rows t)))
                  (unique (map City (rows t))) t
     = t.
Proof.
  assert (H : forall col, pick (unique (map col (rows t))) col t = t).
  { intros col. apply pick_keeps_all. intros r Hr.
    unfold unique. rewrite unique_acc_In. split; [now apply in_map | auto]. }
  split; [exact H|].
  unfold filter_logic. now rewrite !H.
Qed.

(** X3.  The defaults of the two date inputs (lines 52-53) are the least
    and the greatest Order Date of the table after the unparseable rows
    are dropped.  Both exist exactly when that table has a row; each is
    the date of some row; and the range from one to the other keeps every
    row. *)
Theorem default_dates_span_the_table (raw : Table RawDate) :
  let t := load_and_coerce raw in
  match col_min t, col_max t with
  | Some lo, Some hi =>
      lo <= hi
      /\ (exists r, In r (rows t) /\ Order_Date r = Some lo)
      /\ (exists r, In r (rows t) /\ Order_Date r = Some hi)
      /\ (forall r d, In r (rows t) -> Order_Date r = Some d -> lo <= d <= hi)
      /\ date_range lo hi t = t
  | None, None => rows t = []
  | _, _ => False
  end.
Proof.
  intros t.
  pose proof (valid_load_and_coerce raw) as Hv. fold t in Hv.
  rewrite Forall_forall in Hv.
  destruct (col_min t) as [lo|] eqn:Hmin, (col_max t) as [hi|] eqn:Hmax.
  - destruct (col_min_some t lo Hmin) as [Hlo [rlo [Hrlo Hdlo]]].
    destruct (col_max_some t hi Hmax) as [Hhi [rhi [Hrhi Hdhi]]].
    split; [exact (Hhi rlo lo Hrlo Hdlo)|].
    split; [eauto|]. split; [eauto|].
    split; [intros r d Hr Hd; split; eauto|].
    apply select_keeps_all. intros r Hr. apply between_spec.
    destruct (Hv r Hr) as [d Hd]. exists d. split; [exact Hd|].
    split; eauto.
  - destruct (col_min_some t lo Hmin) as [_ [r [Hr Hd]]].
    rewrite col_max_none in Hmax. rewrite (Hmax r Hr) in Hd. discriminate.
  - destruct (col_max_some t hi Hmax) as [_ [r [Hr Hd]]].
    rewrite col_min_none in Hmin. rewrite (Hmin r Hr) in Hd. discriminate.
  - rewrite col_min_none in Hmin.
    destruct (rows t) as [|r l] eqn:E; [reflexivity|].
    destruct (Hv r (or_introl eq_refl)) as [d Hd].
    rewrite (Hmin r (or_introl eq_refl)) in Hd. discriminate.
Qed.


(** ** Further facts: assigned columns and the monthly table *)

Lemma get_set_same (name : string) (v : Cell) (l : list (string * Cell)) :
  get_cell name (set_cell name v l) = v.
Proof.
  induction l as [|[n x] l IH]; simpl.
  - now rewrite String.eqb_refl.
  - destruct (String.eqb n name) eqn:E; simpl; rewrite E; [reflexivity | exact IH].
Qed.

Lemma get_set_other (name n : string) (v : Cell) (l : list (string * Cell)) :
  n <> name -> get_cell n (set_cell name v l) = get_cell n l.
Proof.
  intros Hne. induction l as [|[n0 x] l IH]; simpl.
  - destruct (String.eqb_spec name n); [congruence | reflexivity].
  - destruct (String.eqb_spec n0 name) as [->|Hn0]; simpl.
    + destruct (String.eqb_spec name n); [congruence | reflexivity].
    + destruct (String.eqb n0 n); [reflexivity | exact IH].
Qed.




Section GroupByMap.

Context {D E : Type} (key : Row D -> option string)
        (key' : Row E -> option string) (f : Row D -> Row E).
Hypothesis same_key : forall r, key' (f r) = key r.
Hypothesis same_sales : forall r, Sales (f r) = Sales r.


End GroupByMap.




Lemma valid_filtered (env : Env) (v : Vars) :
  linked env v -> Forall valid_date (rows (filtered_df v)).
Proof.
  intros L. rewrite (linked_filtered _ _ L), (linked_df _ _ L).
  apply valid_filter_logic, valid_date_range, valid_load_and_coerce.
Qed.





(** ** Further facts: what a group-by leaves out, and the order of rows *)

Section GroupByMore.

Context {D : Type} (key : Row D -> option string).




End GroupByMore.




(** X10.  The three aggregate tables of a finished run come out sorted
    by key, strictly ascending in the byte order of the keys; the monthly
    table is therefore ordered by the text of its labels. *)
Theorem aggregates_come_sorted_by_key
        (env : Env) (v : Vars) (page : list UI) :
  run env = (Val v, page) ->
  StronglySorted (fun a b => String.compare a b = Lt) (keys (category_df v))
  /\ StronglySorted (fun a b => String.compare a b = Lt) (keys (region_df v))
  /\ StronglySorted (fun a b => String.compare a b = Lt) (keys (linechart v)).
Proof.
  intros Hrun. apply run_finished in Hrun. destruct Hrun as [_ [L _]].
  rewrite (linked_category _ _ L), (linked_region_df _ _ L),
    (linked_linechart _ _ L).
  split; [apply (groupby_sum_sorted Category)|].
  split; [apply (groupby_sum_sorted Region)|].
  apply (groupby_sum_sorted month_year_label).
Qed.


(** ** Further facts: the page, the loader, the order of the stages *)



Lemma table_ext {D} (a b : Table D) :
  other_columns a = other_columns b -> rows a = rows b -> a = b.
Proof. destruct a, b; simpl; intros -> ->; reflexivity. Qed.

Lemma other_columns_pick (sel : list (option string))
      (col : DRow -> option string) (t : DTable) :
  other_columns (pick sel col t) = other_columns t.
Proof. destruct sel; reflexivity. Qed.

Lemma pick_pick (sel1 sel2 : list (option string))
      (col1 col2 : DRow -> option string) (t : DTable) :
  pick sel1 col1 (pick sel2 col2 t) = pick sel2 col2 (pick sel1 col1 t).
Proof.
  apply table_ext.
  - now rewrite !other_columns_pick.
  - rewrite !rows_pick, !filter_filter. apply filter_ext.
    intros r. apply andb_comm.
Qed.

Lemma pick_date_range (sel : list (option string)) (col : DRow -> option string)
      (d1 d2 : Timestamp) (t : DTable) :
  pick sel col (date_range d1 d2 t) = date_range d1 d2 (pick sel col t).
Proof.
  apply table_ext.
  - unfold date_range, select. cbn [other_columns].
    now rewrite !other_columns_pick.
  - unfold date_range, select. cbn [rows].
    rewrite !rows_pick. cbn [rows]. rewrite !filter_filter.
    apply filter_ext. intros r. apply andb_comm.
Qed.

Lemma pick_satisfied (sel : list (option string)) (col : DRow -> option string)
      (t : DTable) :
  (forall r, In r (rows t) -> sel <> [] -> In (col r) sel) ->
  pick sel col t = t.
Proof.
  intros H. destruct sel as [|x sel]; [reflexivity|].
  apply pick_keeps_all. intros r Hr. apply H; [exact Hr | discriminate].
Qed.



(** X14.  The order of the filtering stages does not matter: the three
    sidebar filters can be applied in the reverse order, the date range
    can be applied after them instead of before, and applying the sidebar
    filters a second time changes nothing. *)
Theorem filter_stages_commute (t : DTable) :
  (forall region state city,
      filter_logic region state city t
      = pick region Region (pick state State (pick city City t)))
  /\ (forall region state city d1 d2,
        filter_logic region state city (date_range d1 d2 t)
        = date_range d1 d2 (filter_logic region state city t))
  /\ (forall region state city,
        filter_logic region state city (filter_logic region state city t)
        = filter_logic region state city t).
Proof.
  split; [|split].
  - intros region state city. unfold filter_logic.
    rewrite (pick_pick city state). rewrite (pick_pick city region).
    now rewrite (pick_pick state region).
  - intros region state city d1 d2. unfold filter_logic.
    now rewrite !pick_date_range.
  - intros region state city.
    set (T := filter_logic region state city t).
    assert (HT : forall r, In r (rows T) ->
                 (region <> [] -> In (Region r) region)
                 /\ (state <> [] -> In (State r) state)
                 /\ (city <> [] -> In (City r) city)).
    { intros r Hr. apply In_filter_logic in Hr. tauto. }
    unfold filter_logic at 1.
    rewrite (pick_satisfied region Region T) by (intros r Hr; apply HT, Hr).
    rewrite (pick_satisfied state State T) by (intros r Hr; apply HT, Hr).
    apply pick_satisfied. intros r Hr. apply HT, Hr.
Qed.

Lemma forallb_sample_columns (t : DTable) :
  forallb (has_column t) sample_columns
  = existsb (String.eqb "Profit") (other_columns t)
    && existsb (String.eqb "Quantity") (other_columns t).
Proof.
  unfold sample_columns, has_column. cbn [forallb]. rewrite !existsb_app.
  rewrite (eq_refl : existsb (String.eqb "Region") named_columns = true).
  rewrite (eq_refl : existsb (String.eqb "State") named_columns = true).
  rewrite (eq_refl : existsb (String.eqb "City") named_columns = true).
  rewrite (eq_refl : existsb (String.eqb "Category") named_columns = true).
  rewrite (eq_refl : existsb (String.eqb "Sales") named_columns = true).
  rewrite (eq_refl : existsb (String.eqb "Profit") named_columns = false).
  rewrite (eq_refl : existsb (String.eqb "Quantity") named_columns = false).
  cbn [orb andb]. now rewrite andb_true_r.
Qed.

(** X15.  The sample table of line 145 shows the first five rows of the
    filtered table, all of them when there are fewer, in their order and
    under their index labels, with the seven listed columns in the listed
    order.  Taking it fails exactly when the table has no Profit or no
    Quantity column. *)
Theorem df_sample_is_the_first_five_rows (t : DTable) :
  (df_sample t = None
   <-> ~ (In "Profit" (other_columns t) /\ In "Quantity" (other_columns t)))
  /\ forall f,
       df_sample t = Some f ->
       columns f = sample_columns
       /\ List.length (lines f) = Nat.min 5 (List.length (rows t))
       /\ map fst (lines f) = firstn 5 (map label (rows t))
       /\ map snd (lines f)
          = map (fun r => [ostr_cell (Region r); ostr_cell (State r);
                           ostr_cell (City r); ostr_cell (Category r);
                           num_cell (Sales r);
                           get_cell "Profit" (others r);
                           get_cell "Quantity" (others r)])
                (firstn 5 (rows t)).
Proof.
  assert (Hhas : forall c, existsb (String.eqb c) (other_columns t) = true
                           <-> In c (other_columns t)).
  { intros c. rewrite existsb_exists. split.
    - intros [x [Hx He]]. apply String.eqb_eq in He. now subst.
    - intros H. exists c. split; [exact H | apply String.eqb_refl]. }
  unfold df_sample, project.
  rewrite (forallb_sample_columns (head 5 t)).
  unfold sample_columns, head. cbn [other_columns rows].
  destruct (existsb (String.eqb "Profit") (other_columns t)) eqn:EP;
    destruct (existsb (String.eqb "Quantity") (other_columns t)) eqn:EQ;
    cbn [andb].
  - split.
    + split; [discriminate|]. intros H. exfalso. apply H.
      split; now apply Hhas.
    + intros f Hf.
      pose proof (f_equal (fun o => match o with Some x => x | None => f end)
                          Hf) as E.
      cbv beta iota in E. subst f. cbn [columns lines].
      split; [reflexivity|].
      split; [now rewrite length_map, length_firstn|].
      split; [now rewrite map_map, firstn_map|].
      rewrite map_map. apply map_ext. intros r. reflexivity.
  - split; [|discriminate]. split; [|reflexivity].
    intros _ [_ H]. apply Hhas in H. congruence.
  - split; [|discriminate]. split; [|reflexivity].
    intros _ [H _]. apply Hhas in H. congruence.
  - split; [|discriminate]. split; [|reflexivity].
    intros _ [H _]. apply Hhas in H. congruence.
Qed.

(** X16.  At the end of a finished run every row of [filtered_df] carries
    both month columns, and neither is ever empty: [month_year] holds the
    monthly period of the row's Order Date and [month] the name of its
    month (lines 112 and 149). *)
Theorem month_columns_are_filled
        (env : Env) (v : Vars) (page : list UI) :
  run env = (Val v, page) ->
  forall r, In r (rows (filtered_df_end v)) ->
    exists d, Order_Date r = Some d
              /\ get_cell "month_year" (others r) = CPeriod (to_period_M d)
              /\ get_cell "month" (others r) = CStr (month_name d).
Proof.
  intros Hrun r Hr. apply run_finished in Hrun. destruct Hrun as [_ [L _]].
  pose proof (valid_filtered env v L) as Hv. rewrite Forall_forall in Hv.
  rewrite (linked_end _ _ L) in Hr.
  unfold with_month, with_month_year, assign in Hr. cbn [rows] in Hr.
  rewrite map_map in Hr. apply in_map_iff in Hr.
  destruct Hr as [r0 [<- Hr0]]. destruct (Hv r0 Hr0) as [d Hd].
  exists d. cbn [Order_Date others set_others].
  split; [exact Hd|]. split.
  - rewrite get_set_other by discriminate. rewrite get_set_same.
    unfold month_year_cell. now rewrite Hd.
  - rewrite get_set_same. unfold month_cell. cbn [Order_Date set_others].
    now rewrite Hd.
Qed.

(** X17.  A visit that changes nothing shows everything: when the two
    date inputs return the least and the greatest Order Date and nothing
    is picked in the sidebar, the filtered table is the whole loaded
    table without its unparseable rows. *)
Theorem untouched_visit_shows_every_row
        (env : Env) (v : Vars) (page : list UI) :
  run env = (Val v, page) ->
  col_min (load_and_coerce (df_loaded v)) = Some (date1 v) ->
  col_max (load_and_coerce (df_loaded v)) = Some (date2 v) ->
  region v = [] -> state v = [] -> city v = [] ->
  df v = load_and_coerce (df_loaded v)
  /\ filtered_df v = load_and_coerce (df_loaded v).
Proof.
  intros Hrun Hmin Hmax Hr Hs Hc.
  apply run_finished in Hrun. destruct Hrun as [_ [L _]].
  assert (Hdf : df v = load_and_coerce (df_loaded v)).
  { rewrite (linked_df _ _ L). apply select_keeps_all. intros r Hin.
    apply between_spec.
    pose proof (valid_load_and_coerce (df_loaded v)) as Hv.
    rewrite Forall_forall in Hv. destruct (Hv r Hin) as [d Hd].
    exists d. split; [exact Hd|]. split.
    - exact (proj1 (col_min_some _ _ Hmin) r d Hin Hd).
    - exact (proj1 (col_max_some _ _ Hmax) r d Hin Hd). }
  split; [exact Hdf|].
  rewrite (linked_filtered _ _ L), Hr, Hs, Hc, Hdf. reflexivity.
Qed.

End Dashboard.

(** ** The claims on the sample visits *)

Section OnTheSample.

Import Pandas Streamlit.

Local Abbreviation sample_run :=
  (run Sample.parse_datetime Sample.to_period_M Sample.strftime_Y_b
       Sample.month_name Sample.read_csv Sample.read_excel
       Sample.csv_field Sample.accepts).

Local Abbreviation coerced :=
  (set_Order_Date (parsed Sample.parse_datetime Sample.superstore)).

Local Abbreviation first_record :=
  (Sample.record 0 (Text "05/01/2017") "West" "California" "Los Angeles"
                 "Furniture" 200).

(** Name the outcome of a finished sample run, keeping its equation. *)
Ltac finished_run env v page Hrun :=
  destruct (sample_run env) as [[v| |] page] eqn:Hrun;
  try (vm_compute in Hrun; discriminate Hrun).

(** Replace the names by what the run computed. *)
Ltac unfold_run Hrun := vm_compute in Hrun; injection Hrun as <- <-.

Lemma filtering_is_conjunction_witness :
  exists v page,
    sample_run Sample.visit = (Val v, page)
    /\ In first_record (rows (df_loaded v))
    /\ In (coerced first_record) (rows (filtered_df v)).
Proof.
  finished_run Sample.visit v page Hrun.
  exists v, page. split; [reflexivity|].
  pose proof (filtering_is_conjunction
                Sample.parse_datetime Sample.to_period_M Sample.strftime_Y_b
                Sample.month_name Sample.read_csv Sample.read_excel
                Sample.csv_field Sample.accepts
                Sample.visit v page Hrun) as [_ H].
  specialize (H first_record).
  unfold_run Hrun.
  split; [now left|].
  apply H; [now left|].
  split; [|split; [|split]].
  - eexists. split; [reflexivity|]. vm_compute. split; discriminate.
  - intros _. now left.
  - intros H0. now elim H0.
  - intros H0. now elim H0.
Defined.




Lemma upload_reader_choice_witness :
  uploaded Sample.visit = Some (mkUpload "sales.csv" [])
  /\ Sample.accepts ["csv"; "txt"; "xlsx"; "xls"] "sales.csv" = true
  /\ load Sample.read_csv Sample.read_excel Sample.accepts Sample.visit []
     = (Val Sample.superstore, [write "✅ Uploaded File: sales.csv"]).
Proof.
  pose proof (upload_reader_choice
                Sample.read_csv Sample.read_excel Sample.accepts
                Sample.visit (mkUpload "sales.csv" []) [] eq_refl)
    as [H1 [H2 [H3 _]]].
  split; [exact H1|]. split; [exact H2|].
  rewrite H3; [reflexivity|].
  left. exists "sales". reflexivity.
Defined.

Lemma aggregate_tables_are_downloadable_witness :
  exists v page,
    sample_run Sample.visit = (Val v, page)
    /\ In (download_button "Download Category Data"
             (encode_utf8
                (to_csv Sample.csv_field false
                        (frame_of_agg "Category" (category_df v))))
             "Category.csv" "text/csv") page.
Proof.
  finished_run Sample.visit v page Hrun.
  exists v, page. split; [reflexivity|].
  exact (proj1 (aggregate_tables_are_downloadable
                  Sample.parse_datetime Sample.to_period_M
                  Sample.strftime_Y_b Sample.month_name Sample.read_csv
                  Sample.read_excel Sample.csv_field Sample.accepts
                  Sample.visit v page Hrun)).
Defined.

(** On the sample visit the export has three rows: fewer than the five
    loaded, more than the two the Region selection leaves. *)
Lemma original_data_download_witness :
  exists v page,
    sample_run Sample.visit = (Val v, page)
    /\ In (download_button "⬇️ Download Original Data"
             (encode_utf8
                (to_csv Sample.csv_field false
                   (frame_of_table
                      (date_range (date1 v) (date2 v)
                         (dropna (coerce Sample.parse_datetime
                                         (df_loaded v)))))))
             "Data.csv" "text/csv") page
    /\ List.length (rows (df_loaded v)) = 5%nat
    /\ List.length (rows (df v)) = 3%nat
    /\ List.length (rows (filtered_df v)) = 2%nat.
Proof.
  finished_run Sample.visit v page Hrun.
  exists v, page. split; [reflexivity|].
  pose proof (original_data_download
                Sample.parse_datetime Sample.to_period_M Sample.strftime_Y_b
                Sample.month_name Sample.read_csv Sample.read_excel
                Sample.csv_field Sample.accepts
                Sample.visit v page Hrun) as [H _].
  split; [exact H|].
  unfold_run Hrun. repeat split.
Defined.

Lemma order_date_stays_valid_witness :
  exists v page,
    sample_run Sample.visit = (Val v, page)
    /\ df_loaded v = Sample.superstore
    /\ In first_record (rows Sample.superstore)
    /\ In (coerced first_record)
          (rows (load_and_coerce Sample.parse_datetime Sample.superstore))
    /\ Forall valid_date (rows (filtered_df_end v)).
Proof.
  finished_run Sample.visit v page Hrun.
  exists v, page. split; [reflexivity|].
  pose proof (order_date_stays_valid
                Sample.parse_datetime Sample.to_period_M Sample.strftime_Y_b
                Sample.month_name Sample.read_csv Sample.read_excel
                Sample.csv_field Sample.accepts
                Sample.superstore) as [_ [Hkeep [_ Hrunv]]].
  specialize (Hrunv Sample.visit v page Hrun).
  unfold_run Hrun.
  split; [reflexivity|]. split; [now left|]. split.
  - apply Hkeep; [now left|]. eexists. reflexivity.
  - apply Hrunv. reflexivity.
Defined.

Lemma halts_in_exactly_two_cases_witness :
  plotly_import Sample.visit_empty = None
  /\ file_uploader Sample.accepts Sample.visit_empty = None
  /\ default_file Sample.visit_empty = None
  /\ sample_run Sample.visit_empty
     = (Halt, [error "❌ Default dataset not found. Please upload a file."])
  /\ plotly_import Sample.visit_excel = None
  /\ fst (sample_run Sample.visit_excel) = Exn.
Proof.
  pose proof (halts_in_exactly_two_cases
                Sample.parse_datetime Sample.to_period_M Sample.strftime_Y_b
                Sample.month_name Sample.read_csv Sample.read_excel
                Sample.csv_field Sample.accepts
                Sample.visit_empty) as [_ [Hstop _]].
  pose proof (halts_in_exactly_two_cases
                Sample.parse_datetime Sample.to_period_M Sample.strftime_Y_b
                Sample.month_name Sample.read_csv Sample.read_excel
                Sample.csv_field Sample.accepts
                Sample.visit_excel) as [_ [_ [_ [_ [_ [Hexn _]]]]]].
  split; [reflexivity|]. split; [reflexivity|]. split; [reflexivity|].
  split; [exact (Hstop eq_refl eq_refl eq_refl)|].
  split; [reflexivity|].
  exact (Hexn eq_refl (mkUpload "sales.xlsx" []) eq_refl eq_refl).
Defined.

Lemma empty_selection_is_no_filter_witness :
  exists v page,
    sample_run Sample.visit_unfiltered = (Val v, page)
    /\ region v = [] /\ state v = [] /\ city v = []
    /\ filtered_df v = df v.
Proof.
  finished_run Sample.visit_unfiltered v page Hrun.
  exists v, page. split; [reflexivity|].
  pose proof (empty_selection_is_no_filter
                Sample.parse_datetime Sample.to_period_M Sample.strftime_Y_b
                Sample.month_name Sample.read_csv Sample.read_excel
                Sample.csv_field Sample.accepts
                (df v)) as H.
  do 8 destruct H as [_ H].
  specialize (H Sample.visit_unfiltered v page Hrun eq_refl).
  unfold_run Hrun.
  split; [reflexivity|]. split; [reflexivity|]. split; [reflexivity|].
  apply H; reflexivity.
Defined.

(** *** The further properties on the sample visits *)






Lemma aggregates_come_sorted_by_key_witness :
  exists v page,
    sample_run Sample.visit = (Val v, page)
    /\ StronglySorted (fun a b => String.compare a b = Lt)
                      (keys (category_df v)).
Proof.
  finished_run Sample.visit v page Hrun.
  exists v, page. split; [reflexivity|].
  exact (proj1 (aggregates_come_sorted_by_key
                  Sample.parse_datetime Sample.to_period_M Sample.strftime_Y_b
                Sample.month_name Sample.read_csv Sample.read_excel
                Sample.csv_field Sample.accepts
                  Sample.visit v page Hrun)).
Defined.



Lemma month_columns_are_filled_witness :
  exists v page r,
    sample_run Sample.visit = (Val v, page)
    /\ In r (rows (filtered_df_end v))
    /\ get_cell "month" (others r) = CStr "January".
Proof.
  finished_run Sample.visit v page Hrun.
  pose proof (month_columns_are_filled
                Sample.parse_datetime Sample.to_period_M Sample.strftime_Y_b
                Sample.month_name Sample.read_csv Sample.read_excel
                Sample.csv_field Sample.accepts
                Sample.visit v page Hrun) as H.
  unfold_run Hrun.
  eexists. eexists. eexists.
  split; [reflexivity|]. split; [now left|].
  match goal with
  | |- get_cell _ (others ?r) = _ =>
      destruct (H r (or_introl eq_refl)) as [d [Hd [_ Hm]]]
  end.
  injection Hd as <-. exact Hm.
Defined.

Lemma untouched_visit_shows_every_row_witness :
  exists v page,
    sample_run Sample.visit_untouched = (Val v, page)
    /\ region v = [] /\ state v = [] /\ city v = []
    /\ filtered_df v
       = load_and_coerce Sample.parse_datetime (df_loaded v).
Proof.
  finished_run Sample.visit_untouched v page Hrun.
  exists v, page. split; [reflexivity|].
  pose proof (untouched_visit_shows_every_row
                Sample.parse_datetime Sample.to_period_M Sample.strftime_Y_b
                Sample.month_name Sample.read_csv Sample.read_excel
                Sample.csv_field Sample.accepts
                Sample.visit_untouched v page Hrun) as H.
  unfold_run Hrun.
  split; [reflexivity|]. split; [reflexivity|]. split; [reflexivity|].
  exact (proj2 (H eq_refl eq_refl eq_refl eq_refl eq_refl)).
Defined.

(** *** The sample visits, run *)

Example run_without_plotly :
  sample_run Sample.visit_no_plotly
  = (Halt,
     [ error "⚠️ Required package 'plotly' is not installed or failed to import.";
       info "Install it using: `pip install plotly`";
       write "Import error: No module named 'plotly'" ]).
Proof. vm_compute. reflexivity. Qed.

Example run_excel_reader_raises :
  sample_run Sample.visit_excel = (Exn, [write "✅ Uploaded File: sales.xlsx"]).
Proof. vm_compute. reflexivity. Qed.

Example run_sample_tables :
  exists v page,
    sample_run Sample.visit = (Val v, page)
    /\ category_df v = [("Furniture", 200); ("Technology", 75)]
    /\ region_df v = [("West", 275)]
    /\ linechart v = [("2017-Jan", 275)]
    /\ map label (rows (df v)) = [0; 1; 4]
    /\ map label (rows (filtered_df v)) = [0; 4]
    /\ other_columns (filtered_df_end v) = ["Quantity"; "month_year"; "month"]
    /\ other_columns (df v) = ["Quantity"].
Proof.
  eexists. eexists. split; [vm_compute; reflexivity|].
  repeat split.
Qed.

Example endswith_cases :
  Str.endswith "sales.csv" ".csv" = true
  /\ Str.endswith "notes.txt" ".txt" = true
  /\ Str.endswith "SALES.CSV" ".csv" = false
  /\ Str.endswith "sales.csv.xlsx" ".csv" = false
  /\ Str.endswith "csv" ".csv" = false.
Proof. repeat split. Qed.

Example group_keys_come_sorted :
  groupby_sum Category
    (map (fun c => mkRow 0 (Some 0) None None None (Some c) (Some 1) [])
         ["Technology"; "Furniture"; "Office Supplies"; "Furniture"])
  = [("Furniture", 2); ("Office Supplies", 1); ("Technology", 1)].
Proof. reflexivity. Qed.

(** The monthly table is ordered by the text of its labels, so February
    comes before January. *)
Example monthly_table_is_ordered_by_label_text :
  exists v page,
    sample_run Sample.visit_untouched = (Val v, page)
    /\ linechart v = [("2017-Feb", 300); ("2017-Jan", 275); ("2017-Mar", 120)]
    /\ map label (rows (filtered_df v)) = [0; 1; 3; 4].
Proof.
  eexists. eexists. split; [vm_compute; reflexivity|].
  split; reflexivity.
Qed.

(** The sample table has no Profit column, so line 145 cannot take its
    seven columns; with one it shows the rows it is given. *)
Example df_sample_on_the_sample :
  df_sample (load_and_coerce Sample.parse_datetime Sample.superstore) = None
  /\ option_map (fun f => map fst (lines f))
       (df_sample
          (assign "Profit" (fun _ => CNum 0)
                  (load_and_coerce Sample.parse_datetime Sample.superstore)))
     = Some [0; 1; 3; 4].
Proof. split; reflexivity. Qed.

End OnTheSample.
